(** * Acid dissociation calculator: a shallow embedding of [index.py]

    The Python class [AcidDissociationCalculator] is a namespace of six
    methods over floats.  The embedding keeps what decides whether a call
    returns:

    - the exceptions of the Python operators: a list pattern on the left
      of [=] ([TypeError]), the float division by zero
      ([ZeroDivisionError]) and a float power whose result leaves the
      range of a double ([OverflowError]);
    - the operations that answer with a special value instead of raising:
      numpy's [sqrt], [log10], power and division;
    - the special values of a double: the two infinities and NaN;
    - the order of the statements of each method.

    A finite double is read as the real number it denotes.  The finite
    results of [+], [*], [/], [sqrt] and [log10] are the exact real
    results: their rounding, their overflow to infinity, underflow and the
    sign of zero are not part of the model.  Statements about such finite
    values are therefore statements about the formulas read over the
    reals, and are marked as such; statements about exceptions and special
    values are about the program. *)

From Stdlib Require Import Reals Lra Lia ZArith List Bool String.
Import ListNotations.

Local Open Scope R_scope.

(** ** Exceptions and results *)

Module Py.

Inductive exn : Type :=
| TypeError
| ValueError
| ZeroDivisionError
| OverflowError.

Inductive result (A : Type) : Type :=
| Ok (a : A)
| Raise (e : exn).

Arguments Ok {A} a.
Arguments Raise {A} e.

Definition bind {A B : Type} (r : result A) (k : A -> result B) : result B :=
  match r with
  | Ok a => k a
  | Raise e => Raise e
  end.

Definition raises {A : Type} (r : result A) : Prop :=
  exists e, r = Raise e.

Definition returns {A : Type} (r : result A) : Prop :=
  exists a, r = Ok a.

End Py.

Import Py.

Declare Scope py_scope.
Delimit Scope py_scope with py.
Notation "x <- r ;; k" := (bind r (fun x => k))
  (at level 61, r at next level, right associativity) : py_scope.
Local Open Scope py_scope.

(** ** Doubles *)

Module Float.

Inductive float : Type :=
| Fin (x : R)
| PInf
| NInf
| NaN.

Definition log10 (x : R) : R := ln x / ln 10.

(** A real result rounds to infinity from here on: the midpoint between
    the largest double, [2^1024 - 2^971], and [2^1024]. *)
Definition overflow_threshold : R := 2 ^ 1024 - 2 ^ 970.

Definition fneg (a : float) : float :=
  match a with
  | Fin x => Fin (- x)
  | PInf => NInf
  | NInf => PInf
  | NaN => NaN
  end.

Definition fadd (a b : float) : float :=
  match a, b with
  | NaN, _ | _, NaN => NaN
  | Fin x, Fin y => Fin (x + y)
  | PInf, NInf | NInf, PInf => NaN
  | PInf, _ | _, PInf => PInf
  | NInf, _ | _, NInf => NInf
  end.

Definition fsub (a b : float) : float := fadd a (fneg b).

(** An infinity times the finite [y]. *)
Definition scale_inf (i : float) (y : R) : float :=
  if Req_dec_T y 0 then NaN
  else if Rlt_dec 0 y then i else fneg i.

Definition fmul (a b : float) : float :=
  match a, b with
  | NaN, _ | _, NaN => NaN
  | Fin x, Fin y => Fin (x * y)
  | Fin x, i => scale_inf i x
  | i, Fin y => scale_inf i y
  | PInf, PInf | NInf, NInf => PInf
  | PInf, NInf | NInf, PInf => NInf
  end.

(** IEEE division.  The only zero of the model stands for [+0.0]. *)
Definition fdiv (a b : float) : float :=
  match a, b with
  | NaN, _ | _, NaN => NaN
  | Fin x, Fin y =>
      if Req_dec_T y 0 then
        if Req_dec_T x 0 then NaN
        else if Rlt_dec 0 x then PInf else NInf
      else Fin (x / y)
  | Fin _, _ => Fin 0
  | i, Fin y => if Rlt_dec y 0 then fneg i else i
  | _, _ => NaN
  end.

(** [a < b] on doubles: false as soon as one side is NaN. *)
Definition flt (a b : float) : bool :=
  match a, b with
  | NaN, _ | _, NaN => false
  | Fin x, Fin y => if Rlt_dec x y then true else false
  | Fin _, PInf => true
  | Fin _, NInf => false
  | PInf, _ => false
  | NInf, NInf => false
  | NInf, _ => true
  end.

Definition is_zero (a : float) : bool :=
  match a with
  | Fin x => if Req_dec_T x 0 then true else false
  | _ => false
  end.

(** Python's [a / b] on two floats: a zero divisor raises, whatever [a]. *)
Definition py_truediv (a b : float) : result float :=
  if is_zero b then Raise ZeroDivisionError else Ok (fdiv a b).

(** numpy's [a / b] when one side is a [float64]: never raises. *)
Definition np_truediv (a b : float) : float := fdiv a b.

(** Python's [a ** 2] on a float: [OverflowError] when the square of a
    finite [a] leaves the range of a double. *)
Definition py_pow2 (a : float) : result float :=
  match a with
  | Fin x =>
      if Rle_dec overflow_threshold (x ^ 2) then Raise OverflowError
      else Ok (Fin (x ^ 2))
  | PInf | NInf => Ok PInf
  | NaN => Ok NaN
  end.

(** The value of [10 ** a] where it is in range. *)
Definition pow10 (a : float) : float :=
  match a with
  | Fin x => Fin (Rpower 10 x)
  | PInf => PInf
  | NInf => Fin 0
  | NaN => NaN
  end.

(** Whether [10 ** a] leaves the range of a double. *)
Definition pow10_overflows (a : float) : bool :=
  match a with
  | Fin x => if Rle_dec overflow_threshold (Rpower 10 x) then true else false
  | _ => false
  end.

(** Python's [10 ** a] on a float: [OverflowError] out of range. *)
Definition py_pow10 (a : float) : result float :=
  if pow10_overflows a then Raise OverflowError else Ok (pow10 a).

(** numpy's [10 ** a] on a [float64]: [inf] (and a warning) out of range. *)
Definition np_pow10 (a : float) : float :=
  if pow10_overflows a then PInf else pow10 a.

(** [np.sqrt]: NaN (and a warning) below zero. *)
Definition np_sqrt (a : float) : float :=
  match a with
  | Fin x => if Rlt_dec x 0 then NaN else Fin (sqrt x)
  | PInf => PInf
  | NInf | NaN => NaN
  end.

(** [np.log10]: NaN below zero, [-inf] at zero (and a warning each). *)
Definition np_log10 (a : float) : float :=
  match a with
  | Fin x =>
      if Rlt_dec x 0 then NaN
      else if Req_dec_T x 0 then NInf
      else Fin (log10 x)
  | PInf => PInf
  | NInf | NaN => NaN
  end.

End Float.

Import Float.

(** ** Python values

    [ka_from_ph] binds its [H] through a list pattern, so the embedding
    has to tell a float from a list. *)

#[local] Unset Elimination Schemes.
Inductive value : Type :=
| VFloat (x : float)
| VList (xs : list value).
#[local] Set Elimination Schemes.

(** The assignment [[H] = v]: [v] has to be an iterable of one element. *)
Definition unpack1 (v : value) : result value :=
  match v with
  | VFloat _ => Raise TypeError
  | VList [x] => Ok x
  | VList _ => Raise ValueError
  end.

(** The float an arithmetic operator finds in [v]; a list operand is a
    [TypeError] for [/], [**] and [-] alike. *)
Definition as_float (v : value) : result float :=
  match v with
  | VFloat x => Ok x
  | VList _ => Raise TypeError
  end.

(** ** The calculator *)

Module AcidDissociationCalculator.

(** Lines 30 to 37 of [ka_from_ph]: the 5% rule and the two formulas.
    [and] does not evaluate [H / C] when [approximation] is false, and
    [H ** 2] is evaluated before the division that uses it. *)
Definition ka_from_ph_rule (H : value) (C : float) (approximation : bool)
  : result float :=
  small <- (if approximation
            then h <- as_float H ;;
                 q <- py_truediv h C ;;
                 Ok (flt q (Fin 0.05))
            else Ok false) ;;
  if (small : bool)
  then h <- as_float H ;; s <- py_pow2 h ;; py_truediv s C
  else h <- as_float H ;; s <- py_pow2 h ;; py_truediv s (fsub C h).

Definition ka_from_ph (pH C : float) (approximation : bool) : result float :=
  p <- py_pow10 (fneg pH) ;;
  H <- unpack1 (VFloat p) ;;
  ka_from_ph_rule H C approximation.

Definition ph_from_ka (Ka C : float) : result float :=
  sq <- py_pow2 Ka ;;
  let discriminant := fadd sq (fmul (fmul (Fin 4) Ka) C) in
  let H := np_truediv (fadd (fneg Ka) (np_sqrt discriminant)) (Fin 2) in
  let pH := fneg (np_log10 H) in
  Ok pH.

Definition pka_from_ka (Ka : float) : result float :=
  Ok (fneg (np_log10 Ka)).

Definition ka_from_pka (pKa : float) : result float :=
  py_pow10 (fneg pKa).

Definition degree_of_dissociation (Ka C : float) : result float :=
  pH <- ph_from_ka Ka C ;;
  let H := np_pow10 (fneg pH) in
  Ok (np_truediv H C).

Definition buffer_ph (pKa acid_conc salt_conc : float) : result float :=
  q <- py_truediv salt_conc acid_conc ;;
  let pH := fadd pKa (np_log10 q) in
  Ok pH.

End AcidDissociationCalculator.

Import AcidDissociationCalculator.

(** ** The formulas read over the reals

    The spec gives every quantity as a real number.  These are the
    expressions of [ph_from_ka] and [degree_of_dissociation] with the
    arithmetic of the reals in place of that of doubles. *)

(** The positive root the source takes for [H]. *)
Definition root (Ka C : R) : R := (- Ka + sqrt (Ka ^ 2 + 4 * Ka * C)) / 2.



(** ** The example usage at the end of the module

    The statements after the class run when the module is loaded.  A
    program threads the lines printed so far and stops at the first
    exception.  The two format specifications [.2e] and [.2f] are taken as
    functions from doubles to text. *)

Module Script.

Definition program (A : Type) : Type :=
  list string -> list string * result A.

Definition call {A : Type} (r : result A) : program A :=
  fun out => (out, r).

Definition print (line : string) : program unit :=
  fun out => ((out ++ [line])%list, Ok tt).

Definition seq {A B : Type} (p : program A) (k : A -> program B) : program B :=
  fun out =>
    match p out with
    | (out', Ok a) => k a out'
    | (out', Raise e) => (out', Raise e)
    end.

Definition example_usage (fmt_2e fmt_2f : float -> string) : program unit :=
  seq (call (ka_from_ph (Fin 2.89) (Fin 0.100) true)) (fun ka_value =>
  seq (print ("Ka from pH: " ++ fmt_2e ka_value)%string) (fun _ =>
  seq (call (pka_from_ka ka_value)) (fun pka =>
  seq (print ("pKa: " ++ fmt_2f pka)%string) (fun _ =>
  seq (call (ph_from_ka (Fin 1.8e-5) (Fin 0.10))) (fun pH_value =>
  seq (print ("pH from Ka: " ++ fmt_2f pH_value)%string) (fun _ =>
  seq (call (buffer_ph (Fin 4.76) (Fin 0.10) (Fin 0.10))) (fun buffer_pH =>
  print ("Buffer pH: " ++ fmt_2f buffer_pH)%string))))))).

End Script.

(** ** Evaluating the operations on finite doubles *)

Ltac decide_cmp :=
  repeat match goal with
    | |- context [Rlt_dec ?a ?b] => destruct (Rlt_dec a b); try lra
    | |- context [Rle_dec ?a ?b] => destruct (Rle_dec a b); try lra
    | |- context [Req_dec_T ?a ?b] => destruct (Req_dec_T a b); try lra
    end;
  try reflexivity.

Lemma np_log10_fin (x : R) : 0 < x -> np_log10 (Fin x) = Fin (log10 x).
Proof. intros; unfold np_log10; decide_cmp. Qed.

Lemma np_log10_zero : np_log10 (Fin 0) = NInf.
Proof. unfold np_log10; decide_cmp. Qed.

Lemma np_log10_negative (x : R) : x < 0 -> np_log10 (Fin x) = NaN.
Proof. intros; unfold np_log10; decide_cmp. Qed.

Lemma fdiv_fin (x y : R) : y <> 0 -> fdiv (Fin x) (Fin y) = Fin (x / y).
Proof. intros; unfold fdiv; destruct (Req_dec_T y 0); [contradiction|reflexivity]. Qed.

Lemma py_truediv_fin (x y : R) :
  y <> 0 -> py_truediv (Fin x) (Fin y) = Ok (Fin (x / y)).
Proof.
  intros; unfold py_truediv, is_zero.
  destruct (Req_dec_T y 0); [contradiction|]. now rewrite fdiv_fin.
Qed.

Lemma py_truediv_zero (a : float) :
  py_truediv a (Fin 0) = Raise ZeroDivisionError.
Proof. unfold py_truediv, is_zero; decide_cmp. Qed.

Lemma flt_fin_true (x y : R) : x < y -> flt (Fin x) (Fin y) = true.
Proof. intros; unfold flt; decide_cmp. Qed.

Lemma flt_fin_false (x y : R) : y <= x -> flt (Fin x) (Fin y) = false.
Proof. intros; unfold flt; decide_cmp. Qed.

(** The range of a double lies between [10^308] and [10^309]. *)
Lemma overflow_threshold_bounds :
  10 ^ 308 < overflow_threshold < 10 ^ 309.
Proof. unfold overflow_threshold. split; lra. Qed.

Lemma py_pow2_fin (x : R) :
  x ^ 2 < overflow_threshold -> py_pow2 (Fin x) = Ok (Fin (x ^ 2)).
Proof. intros; unfold py_pow2; decide_cmp. Qed.

Lemma py_pow2_overflow (x : R) :
  overflow_threshold <= x ^ 2 -> py_pow2 (Fin x) = Raise OverflowError.
Proof. intros; unfold py_pow2; decide_cmp. Qed.

Lemma py_pow10_fin (x : R) :
  Rpower 10 x < overflow_threshold ->
  py_pow10 (Fin x) = Ok (Fin (Rpower 10 x)).
Proof. intros; unfold py_pow10, pow10_overflows; decide_cmp. Qed.

Lemma py_pow10_overflow (x : R) :
  overflow_threshold <= Rpower 10 x ->
  py_pow10 (Fin x) = Raise OverflowError.
Proof. intros; unfold py_pow10, pow10_overflows; decide_cmp. Qed.

(** The special values behave as IEEE 754 prescribes. *)
Example special_values :
  fadd PInf NInf = NaN
  /\ fsub PInf PInf = NaN
  /\ fmul NInf NInf = PInf
  /\ fdiv PInf NInf = NaN
  /\ fdiv (Fin 1) PInf = Fin 0
  /\ flt NInf PInf = true
  /\ flt NaN PInf = false
  /\ np_sqrt NInf = NaN
  /\ np_log10 PInf = PInf
  /\ py_pow10 NInf = Ok (Fin 0)
  /\ py_pow10 PInf = Ok PInf
  /\ py_pow2 NInf = Ok PInf.
Proof. repeat split. Qed.

Example zero_times_infinity : fmul (Fin 0) PInf = NaN.
Proof. unfold fmul, scale_inf. decide_cmp. Qed.

Example unpack1_singleton (x : float) :
  unpack1 (VList [VFloat x]) = Ok (VFloat x)
  /\ unpack1 (VList []) = Raise ValueError
  /\ unpack1 (VFloat x) = Raise TypeError.
Proof. repeat split. Qed.

(** ** Powers of ten and decimal logarithms *)

Lemma ln10_pos : 0 < ln 10.
Proof. rewrite <- ln_1. apply ln_increasing; lra. Qed.

Lemma pow10_log10 (x : R) : 0 < x -> Rpower 10 (log10 x) = x.
Proof.
  intros Hx. unfold Rpower, log10.
  replace (ln x / ln 10 * ln 10) with (ln x).
  - now apply exp_ln.
  - field. pose proof ln10_pos. lra.
Qed.



Lemma Rpower10_pos (x : R) : 0 < Rpower 10 x.
Proof. unfold Rpower. apply exp_pos. Qed.

Lemma Rpower10_le_pow (x : R) (n : nat) :
  x <= INR n -> Rpower 10 x <= 10 ^ n.
Proof.
  intros Hx. rewrite <- Rpower_pow by lra.
  apply Rle_Rpower; lra.
Qed.

Lemma Rpower10_ge_pow (x : R) (n : nat) :
  INR n <= x -> 10 ^ n <= Rpower 10 x.
Proof.
  intros Hx. rewrite <- Rpower_pow by lra.
  apply Rle_Rpower; lra.
Qed.

(** [10 ** x] stays in range up to [x = 308] and leaves it from 309 on. *)
Lemma pow10_in_range (x : R) :
  x <= 308 -> Rpower 10 x < overflow_threshold.
Proof.
  intros Hx. apply Rle_lt_trans with (10 ^ 308).
  - apply Rpower10_le_pow. rewrite INR_IZR_INZ.
    replace (Z.of_nat 308) with 308%Z by reflexivity. exact Hx.
  - apply overflow_threshold_bounds.
Qed.

Lemma pow10_out_of_range (x : R) :
  309 <= x -> overflow_threshold <= Rpower 10 x.
Proof.
  intros Hx. apply Rle_trans with (10 ^ 309).
  - left. apply overflow_threshold_bounds.
  - apply Rpower10_ge_pow. rewrite INR_IZR_INZ.
    replace (Z.of_nat 309) with 309%Z by reflexivity. exact Hx.
Qed.

(** ** The quadratic [x² + Ka·x − Ka·C = 0] *)

Section Quadratic.

Variables Ka C : R.
Hypothesis Ka_pos : 0 < Ka.
Hypothesis C_pos : 0 < C.

Lemma discriminant_pos : 0 < Ka ^ 2 + 4 * Ka * C.
Proof. nra. Qed.

Lemma root_solves : root Ka C ^ 2 + Ka * root Ka C - Ka * C = 0.
Proof.
  unfold root.
  pose proof (sqrt_sqrt (Ka ^ 2 + 4 * Ka * C)
                (Rlt_le _ _ discriminant_pos)) as Hs.
  nra.
Qed.

Lemma root_pos : 0 < root Ka C.
Proof.
  unfold root.
  assert (Ka < sqrt (Ka ^ 2 + 4 * Ka * C)).
  { rewrite <- (sqrt_pow2 Ka) at 1 by lra.
    apply sqrt_lt_1_alt. nra. }
  lra.
Qed.

Lemma root_below_C : root Ka C < C.
Proof.
  pose proof root_solves. pose proof root_pos. nra.
Qed.



End Quadratic.


(** ** [ph_from_ka] on finite arguments *)

Lemma ph_from_ka_overflow (Ka C : R) :
  overflow_threshold <= Ka ^ 2 ->
  ph_from_ka (Fin Ka) (Fin C) = Raise OverflowError.
Proof.
  intros Hov. unfold ph_from_ka. now rewrite py_pow2_overflow.
Qed.

(** What [ph_from_ka] returns when [Ka ** 2] is in range, by the sign of
    the discriminant. *)
Lemma ph_from_ka_fin (Ka C : R) :
  Ka ^ 2 < overflow_threshold ->
  ph_from_ka (Fin Ka) (Fin C)
  = Ok (if Rlt_dec (Ka ^ 2 + 4 * Ka * C) 0 then NaN
        else fneg (np_log10 (Fin (root Ka C)))).
Proof.
  intros Hin. unfold ph_from_ka, np_truediv.
  rewrite py_pow2_fin by assumption. cbn [bind fmul fadd fneg].
  unfold np_sqrt. destruct (Rlt_dec (Ka ^ 2 + 4 * Ka * C) 0).
  - reflexivity.
  - cbn [fadd]. rewrite fdiv_fin by lra. reflexivity.
Qed.

Lemma ph_from_ka_valid (Ka C : R) :
  0 < Ka -> 0 < C -> Ka ^ 2 < overflow_threshold ->
  ph_from_ka (Fin Ka) (Fin C) = Ok (Fin (- log10 (root Ka C))).
Proof.
  intros HKa HC Hin.
  pose proof (discriminant_pos Ka C HKa HC).
  pose proof (root_pos Ka C HKa HC).
  rewrite ph_from_ka_fin by assumption.
  destruct (Rlt_dec _ 0); [exfalso; lra|].
  now rewrite np_log10_fin.
Qed.

(** ** Bounding a decimal logarithm by powers *)


Lemma log10_above (x : R) (n m : nat) :
  0 < x -> 1 < x ^ n * 10 ^ m -> - INR m < INR n * log10 x.
Proof.
  intros Hx Hlt.
  assert (Hxn : 0 < x ^ n) by now apply pow_lt.
  assert (H10 : 0 < 10 ^ m) by (apply pow_lt; lra).
  assert (Hln : ln 1 < ln (x ^ n * 10 ^ m)).
  { apply ln_increasing; [lra | assumption]. }
  rewrite ln_mult, !ln_pow, ln_1 in Hln by (assumption || lra).
  pose proof ln10_pos as HL.
  assert (E : INR n * log10 x * ln 10 = INR n * ln x)
    by (unfold log10; field; lra).
  nra.
Qed.




Lemma small_square_in_range (x : R) :
  -1 <= x <= 1 -> x ^ 2 < overflow_threshold.
Proof.
  intros Hx. pose proof overflow_threshold_bounds as [Hlo _].
  assert (x ^ 2 <= 1) by nra.
  assert (1 < 10 ^ 308) by (apply Rlt_pow_R1; [lra | lia]).
  lra.
Qed.

(** ** The 5% rule of [ka_from_ph], taken on its own

    What lines 30 to 37 compute once [H] is a float whose square is in
    range: the behaviour the docstring of [ka_from_ph] announces. *)

Lemma ka_from_ph_rule_approximate (H C : R) :
  C <> 0 -> H / C < 0.05 -> H ^ 2 < overflow_threshold ->
  ka_from_ph_rule (VFloat (Fin H)) (Fin C) true = Ok (Fin (H ^ 2 / C)).
Proof.
  intros HC Hsmall Hin. unfold ka_from_ph_rule. cbn [as_float bind].
  rewrite py_truediv_fin by assumption. cbn [bind].
  rewrite flt_fin_true by assumption. cbn [bind].
  rewrite py_pow2_fin by assumption. cbn [bind].
  now rewrite py_truediv_fin.
Qed.

Lemma ka_from_ph_rule_exact (H C : R) :
  C <> 0 -> C - H <> 0 -> 0.05 <= H / C -> H ^ 2 < overflow_threshold ->
  ka_from_ph_rule (VFloat (Fin H)) (Fin C) true
  = Ok (Fin (H ^ 2 / (C - H))).
Proof.
  intros HC HCH Hlarge Hin. unfold ka_from_ph_rule. cbn [as_float bind].
  rewrite py_truediv_fin by assumption. cbn [bind].
  rewrite flt_fin_false by assumption. cbn [bind].
  rewrite py_pow2_fin by assumption. cbn [bind fsub fneg fadd].
  now rewrite py_truediv_fin.
Qed.

Lemma ka_from_ph_rule_no_approximation (H C : R) :
  C - H <> 0 -> H ^ 2 < overflow_threshold ->
  ka_from_ph_rule (VFloat (Fin H)) (Fin C) false
  = Ok (Fin (H ^ 2 / (C - H))).
Proof.
  intros HCH Hin. unfold ka_from_ph_rule. cbn [as_float bind].
  rewrite py_pow2_fin by assumption. cbn [bind fsub fneg fadd].
  now rewrite py_truediv_fin.
Qed.

Lemma pow10_minus_one : Rpower 10 (- (1)) = 0.1.
Proof. rewrite Rpower_Ropp, Rpower_1 by lra. lra. Qed.

(** ** [ka_from_ph] as written *)

(** The first statement decides the call: [OverflowError] when the power
    leaves the range of a double, [TypeError] from the list pattern
    otherwise. *)
Lemma ka_from_ph_outcome (pH C : float) (approximation : bool) :
  ka_from_ph pH C approximation
  = if pow10_overflows (fneg pH) then Raise OverflowError
    else Raise TypeError.
Proof.
  unfold ka_from_ph, py_pow10.
  destruct (pow10_overflows (fneg pH)); reflexivity.
Qed.

Lemma pow10_overflows_fin (x : R) :
  pow10_overflows (Fin x) = true <-> overflow_threshold <= Rpower 10 x.
Proof.
  unfold pow10_overflows.
  destruct (Rle_dec overflow_threshold (Rpower 10 x)); split;
    intros; (assumption || reflexivity || discriminate || contradiction).
Qed.

(** C1, as stated, fails: at [pH = -400.0] the power [10 ** 400.0] is
    out of range and the call raises [OverflowError], not [TypeError]. *)
Lemma ka_from_ph_overflow_error :
  ka_from_ph (Fin (-400)) (Fin 0.100) true = Raise OverflowError
  /\ ka_from_ph (Fin (-400)) (Fin 0.100) true <> Raise TypeError.
Proof.
  assert (E : ka_from_ph (Fin (-400)) (Fin 0.100) true = Raise OverflowError).
  { unfold ka_from_ph. cbn [fneg].
    rewrite py_pow10_overflow by (apply pow10_out_of_range; lra).
    reflexivity. }
  split; [exact E|]. rewrite E. discriminate.
Qed.

(** C1, amended: whatever [pH], [C] and [approximation] are,
    [ka_from_ph] fails at its first statement and never returns a Ka.
    It raises [TypeError], the list pattern [[H]] meeting a float, unless
    [10 ** (-pH)] leaves the range of a double, where the power raises
    [OverflowError] first: never for [pH >= -308], always for
    [pH <= -309]. *)
Theorem ka_from_ph_never_returns (pH C : float) (approximation : bool) :
  let r := ka_from_ph pH C approximation in
  ~ returns r
  /\ (r = Raise TypeError \/ r = Raise OverflowError)
  /\ (r = Raise OverflowError <->
      exists p, pH = Fin p /\ overflow_threshold <= Rpower 10 (- p))
  /\ (forall p, pH = Fin p -> -308 <= p -> r = Raise TypeError)
  /\ (forall p, pH = Fin p -> p <= -309 -> r = Raise OverflowError).
Proof.
  intros r. subst r. rewrite ka_from_ph_outcome.
  split; [|split; [|split; [|split]]].
  - intros [ka Hka].
    destruct (pow10_overflows (fneg pH)); discriminate Hka.
  - destruct (pow10_overflows (fneg pH)); [now right | now left].
  - destruct pH as [p| | |]; cbn [fneg].
    + split.
      * intros Hr. exists p. split; [reflexivity|].
        apply pow10_overflows_fin.
        destruct (pow10_overflows (Fin (- p))); [reflexivity|discriminate Hr].
      * intros [q [Hq Hov]]. inversion Hq; subst q.
        apply pow10_overflows_fin in Hov. now rewrite Hov.
    + split; [discriminate | intros [q [Hq _]]; discriminate Hq].
    + split; [discriminate | intros [q [Hq _]]; discriminate Hq].
    + split; [discriminate | intros [q [Hq _]]; discriminate Hq].
  - intros p Hp Hge. subst pH. cbn [fneg].
    assert (Hin : Rpower 10 (- p) < overflow_threshold)
      by (apply pow10_in_range; lra).
    unfold pow10_overflows.
    destruct (Rle_dec overflow_threshold (Rpower 10 (- p)));
      [exfalso; lra | reflexivity].
  - intros p Hp Hle. subst pH. cbn [fneg].
    assert (Hov : overflow_threshold <= Rpower 10 (- p))
      by (apply pow10_out_of_range; lra).
    apply pow10_overflows_fin in Hov. now rewrite Hov.
Qed.

Lemma ka_from_ph_never_returns_witness :
  ka_from_ph (Fin 2.89) (Fin 0.100) true = Raise TypeError.
Proof.
  apply (ka_from_ph_never_returns (Fin 2.89) (Fin 0.100) true) with (p := 2.89).
  - reflexivity.
  - lra.
Defined.

(** At [pH = 2.89] and [C = 0.100] the ratio [H / C] is below 5%. *)
Lemma example_ratio_small : Rpower 10 (- (2.89)) / 0.100 < 0.05.
Proof.
  assert (Hlog : - (2.89) < log10 0.005).
  { assert (Hp : 1 < 0.005 ^ 2 * 10 ^ 5) by lra.
    pose proof (log10_above 0.005 2 5 ltac:(lra) Hp) as Hb.
    rewrite !INR_IZR_INZ in Hb.
    replace (Z.of_nat 2) with 2%Z in Hb by reflexivity.
    replace (Z.of_nat 5) with 5%Z in Hb by reflexivity.
    lra. }
  assert (Hpow : Rpower 10 (- (2.89)) < 0.005).
  { rewrite <- (pow10_log10 0.005) by lra.
    apply Rpower_lt; [lra | exact Hlog]. }
  lra.
Qed.

(** C2: the source's own call [ka_from_ph(2.89, 0.100)], for which
    [H / C < 0.05], raises [TypeError] and returns no Ka, whereas the 5%
    rule applied to this [H] yields the [H² / C] of the claim. *)
Theorem ka_from_ph_example_raises :
  Rpower 10 (- (2.89)) / 0.100 < 0.05
  /\ ka_from_ph (Fin 2.89) (Fin 0.100) true = Raise TypeError
  /\ (forall Ka, ka_from_ph (Fin 2.89) (Fin 0.100) true <> Ok Ka)
  /\ ka_from_ph_rule (VFloat (pow10 (fneg (Fin 2.89)))) (Fin 0.100) true
     = Ok (Fin (Rpower 10 (- (2.89)) ^ 2 / 0.100)).
Proof.
  pose proof example_ratio_small as Hsmall.
  pose proof (Rpower10_pos (- (2.89))) as Hpos.
  assert (E : ka_from_ph (Fin 2.89) (Fin 0.100) true = Raise TypeError).
  { unfold ka_from_ph. cbn [fneg].
    rewrite py_pow10_fin by (apply pow10_in_range; lra). reflexivity. }
  split; [exact Hsmall|]. split; [exact E|]. split.
  - intros Ka HKa. rewrite E in HKa. discriminate HKa.
  - cbn [fneg pow10]. apply ka_from_ph_rule_approximate; [lra | exact Hsmall |].
    apply small_square_in_range. lra.
Qed.

(** C4: for [Ka > 0] and [C > 0] whose squares are in the range of a
    double, [ph_from_ka] returns a finite pH but the round trip through
    [ka_from_ph] with [approximation = false] raises [TypeError]; the
    exact form of lines 30 to 37, applied to [H = 10 ** (-pH)], would give
    [Ka] back. *)
Theorem ph_round_trip_raises (Ka C : R) :
  0 < Ka -> 0 < C ->
  Ka ^ 2 < overflow_threshold -> C ^ 2 < overflow_threshold ->
  exists pH,
    ph_from_ka (Fin Ka) (Fin C) = Ok (Fin pH)
    /\ (p <- ph_from_ka (Fin Ka) (Fin C) ;; ka_from_ph p (Fin C) false)
       = Raise TypeError
    /\ ka_from_ph_rule (VFloat (pow10 (fneg (Fin pH)))) (Fin C) false
       = Ok (Fin Ka).
Proof.
  intros HKa HC HinKa HinC.
  pose proof (root_pos Ka C HKa HC) as Hpos.
  pose proof (root_below_C Ka C HKa HC) as Hlt.
  pose proof (root_solves Ka C HKa HC) as Hq.
  pose proof overflow_threshold_bounds as [Hbig _].
  assert (H1 : 1 < 10 ^ 308) by (apply Rlt_pow_R1; [lra | lia]).
  assert (Hsq : root Ka C ^ 2 < overflow_threshold) by nra.
  assert (Hr : root Ka C < overflow_threshold) by nra.
  assert (Hback : Rpower 10 (- - log10 (root Ka C)) = root Ka C)
    by now rewrite Ropp_involutive, pow10_log10.
  exists (- log10 (root Ka C)).
  split; [now apply ph_from_ka_valid|]. split.
  - rewrite ph_from_ka_valid by assumption. cbn [bind].
    unfold ka_from_ph. cbn [fneg].
    rewrite py_pow10_fin by (rewrite Hback; exact Hr). reflexivity.
  - cbn [fneg pow10]. rewrite Hback.
    rewrite ka_from_ph_rule_no_approximation by (assumption || lra).
    do 2 f_equal.
    apply Rmult_eq_reg_r with (C - root Ka C); [|lra].
    unfold Rdiv. rewrite Rmult_assoc, Rinv_l by lra. nra.
Qed.

Lemma ph_round_trip_raises_witness :
  exists pH,
    ph_from_ka (Fin 1.8e-5) (Fin 0.10) = Ok (Fin pH)
    /\ (p <- ph_from_ka (Fin 1.8e-5) (Fin 0.10) ;;
        ka_from_ph p (Fin 0.10) false)
       = Raise TypeError
    /\ ka_from_ph_rule (VFloat (pow10 (fneg (Fin pH)))) (Fin 0.10) false
       = Ok (Fin 1.8e-5).
Proof.
  apply (ph_round_trip_raises 1.8e-5 0.10);
    try lra; apply small_square_in_range; lra.
Defined.

(** C7: at [pH = 1], [C = 2] the ratio [H / C] is exactly 0.05; the call
    with [approximation = true] raises [TypeError], whereas the 5% rule
    applied to this [H] takes the exact form [H² / (C - H)]. *)
Theorem ka_from_ph_threshold_raises :
  Rpower 10 (- (1)) / 2 = 0.05
  /\ ka_from_ph (Fin 1) (Fin 2) true = Raise TypeError
  /\ ka_from_ph_rule (VFloat (pow10 (fneg (Fin 1)))) (Fin 2) true
     = Ok (Fin (Rpower 10 (- (1)) ^ 2 / (2 - Rpower 10 (- (1))))).
Proof.
  pose proof pow10_minus_one as E.
  split; [lra|]. split.
  - unfold ka_from_ph. cbn [fneg].
    rewrite py_pow10_fin by (apply pow10_in_range; lra). reflexivity.
  - cbn [fneg pow10]. apply ka_from_ph_rule_exact; try lra.
    apply small_square_in_range. lra.
Qed.

(** ** [ph_from_ka] and [degree_of_dissociation] on positive arguments *)














(** ** [buffer_ph] outside its domain *)

Lemma buffer_ph_fin (pKa acid_conc salt_conc : R) :
  acid_conc <> 0 ->
  buffer_ph (Fin pKa) (Fin acid_conc) (Fin salt_conc)
  = Ok (fadd (Fin pKa) (np_log10 (Fin (salt_conc / acid_conc)))).
Proof.
  intros Ha. unfold buffer_ph. now rewrite py_truediv_fin.
Qed.

(** C5, as stated, fails: with a negative acid concentration
    [buffer_ph] raises nothing and returns NaN. *)
Lemma buffer_ph_negative_acid_returns_nan :
  (-0.10 <= 0 \/ 0.10 <= 0)
  /\ buffer_ph (Fin 4.76) (Fin (-0.10)) (Fin 0.10) = Ok NaN
  /\ ~ raises (buffer_ph (Fin 4.76) (Fin (-0.10)) (Fin 0.10)).
Proof.
  assert (E : buffer_ph (Fin 4.76) (Fin (-0.10)) (Fin 0.10) = Ok NaN).
  { rewrite buffer_ph_fin by lra.
    rewrite np_log10_negative by lra. reflexivity. }
  split; [left; lra|]. split; [exact E|].
  intros [e He]. rewrite E in He. discriminate He.
Qed.

(** C5, amended: when [acid_conc <= 0] or [salt_conc <= 0], [buffer_ph]
    checks nothing.  It fails only for [acid_conc = 0], with the
    [ZeroDivisionError] of the float division, as in
    [buffer_ph(4.76, 0.0, 0.10)]; for any other such input it raises
    nothing and returns a value. *)
Theorem buffer_ph_outside_domain (pKa acid_conc salt_conc : R) :
  acid_conc <= 0 \/ salt_conc <= 0 ->
  let r := buffer_ph (Fin pKa) (Fin acid_conc) (Fin salt_conc) in
  ((acid_conc = 0 /\ r = Raise ZeroDivisionError)
   \/ (acid_conc <> 0 /\ returns r))
  /\ buffer_ph (Fin 4.76) (Fin 0.0) (Fin 0.10) = Raise ZeroDivisionError.
Proof.
  intros _ r. subst r. split.
  - destruct (Req_dec_T acid_conc 0) as [Ha|Ha].
    + left. split; [assumption|]. subst acid_conc.
      unfold buffer_ph. now rewrite py_truediv_zero.
    + right. split; [assumption|].
      rewrite buffer_ph_fin by assumption. eexists. reflexivity.
  - replace 0.0 with 0 by lra.
    unfold buffer_ph. now rewrite py_truediv_zero.
Qed.

Lemma buffer_ph_outside_domain_witness :
  (0.0 <= 0 \/ 0.10 <= 0)
  /\ buffer_ph (Fin 4.76) (Fin 0.0) (Fin 0.10) = Raise ZeroDivisionError.
Proof.
  assert (Hdom : 0.0 <= 0 \/ 0.10 <= 0) by (left; lra).
  split; [exact Hdom|].
  apply (buffer_ph_outside_domain 4.76 0.0 0.10 Hdom).
Defined.

(** ** [ph_from_ka] outside its domain *)

(** C6, as stated, fails: [ph_from_ka(-1, 1)] raises nothing and
    returns NaN. *)
Lemma ph_from_ka_negative_ka_returns_nan :
  (-1 <= 0 \/ 1 <= 0)
  /\ ph_from_ka (Fin (-1)) (Fin 1) = Ok NaN
  /\ ~ raises (ph_from_ka (Fin (-1)) (Fin 1)).
Proof.
  assert (E : ph_from_ka (Fin (-1)) (Fin 1) = Ok NaN).
  { rewrite ph_from_ka_fin by (apply small_square_in_range; lra).
    destruct (Rlt_dec ((-1) ^ 2 + 4 * (-1) * 1) 0); [reflexivity|].
    exfalso; lra. }
  split; [left; lra|]. split; [exact E|].
  intros [e He]. rewrite E in He. discriminate He.
Qed.

(** C6, amended: when [Ka <= 0] or [C <= 0], [ph_from_ka] raises no
    domain error.  Its only exception is the [OverflowError] of [Ka**2],
    raised exactly when that square leaves the range of a double; in
    every other case it returns a value, which can be NaN
    ([ph_from_ka(-1, 1)]), [+inf] ([ph_from_ka(0, 1)]) or a finite number
    ([ph_from_ka(-1, -1)]). *)
Theorem ph_from_ka_outside_domain (Ka C : R) :
  Ka <= 0 \/ C <= 0 ->
  let r := ph_from_ka (Fin Ka) (Fin C) in
  (overflow_threshold <= Ka ^ 2 -> r = Raise OverflowError)
  /\ (Ka ^ 2 < overflow_threshold -> returns r)
  /\ (forall e, r = Raise e -> e = OverflowError)
  /\ ph_from_ka (Fin (-1)) (Fin 1) = Ok NaN
  /\ ph_from_ka (Fin 0) (Fin 1) = Ok PInf
  /\ exists pH, ph_from_ka (Fin (-1)) (Fin (-1)) = Ok (Fin pH).
Proof.
  intros _ r. subst r.
  split; [apply ph_from_ka_overflow|].
  split; [intros Hin; rewrite ph_from_ka_fin by assumption;
          eexists; reflexivity|].
  split.
  { intros e He.
    destruct (Rle_dec overflow_threshold (Ka ^ 2)) as [Hov|Hin].
    - rewrite ph_from_ka_overflow in He by assumption. now inversion He.
    - rewrite ph_from_ka_fin in He by lra. discriminate He. }
  split.
  { rewrite ph_from_ka_fin by (apply small_square_in_range; lra).
    destruct (Rlt_dec ((-1) ^ 2 + 4 * (-1) * 1) 0); [reflexivity|].
    exfalso; lra. }
  split.
  { rewrite ph_from_ka_fin by (apply small_square_in_range; lra).
    destruct (Rlt_dec (0 ^ 2 + 4 * 0 * 1) 0); [exfalso; lra|].
    replace (root 0 1) with 0.
    - now rewrite np_log10_zero.
    - unfold root. replace (0 ^ 2 + 4 * 0 * 1) with 0 by ring.
      rewrite sqrt_0. field. }
  exists (- log10 (root (-1) (-1))).
  rewrite ph_from_ka_fin by (apply small_square_in_range; lra).
  destruct (Rlt_dec ((-1) ^ 2 + 4 * (-1) * (-1)) 0); [exfalso; lra|].
  rewrite np_log10_fin; [reflexivity|].
  unfold root.
  assert (0 < sqrt ((-1) ^ 2 + 4 * (-1) * (-1))) by (apply sqrt_lt_R0; lra).
  lra.
Qed.

Lemma ph_from_ka_outside_domain_witness :
  (0 <= 0 \/ 1 <= 0) /\ returns (ph_from_ka (Fin 0) (Fin 1)).
Proof.
  assert (Hdom : 0 <= 0 \/ 1 <= 0) by (left; lra).
  split; [exact Hdom|].
  apply (ph_from_ka_outside_domain 0 1 Hdom).
  apply small_square_in_range. lra.
Defined.

(** * Further properties of the calculator *)

(** ** [buffer_ph] *)



(** X3: over all doubles, [buffer_ph] raises exactly when [acid_conc] is
    zero, and the exception is then [ZeroDivisionError]; a NaN or infinite
    argument never makes it raise. *)
Theorem buffer_ph_raises_iff_zero_acid (pKa acid_conc salt_conc : float) :
  (raises (buffer_ph pKa acid_conc salt_conc) <-> acid_conc = Fin 0)
  /\ (forall e, buffer_ph pKa acid_conc salt_conc = Raise e ->
                e = ZeroDivisionError).
Proof.
  unfold buffer_ph, py_truediv.
  destruct acid_conc as [a| | |]; cbn [is_zero bind].
  - destruct (Req_dec_T a 0) as [Ha|Ha]; cbn [bind].
    + subst a. split.
      * split; [reflexivity | intros _; now exists ZeroDivisionError].
      * intros e He. now inversion He.
    + split.
      * split; [intros [e He]; discriminate He|].
        intros E. inversion E. contradiction.
      * intros e He. discriminate He.
  - split; [split; [intros [e He]|intros E]; discriminate|intros e He; discriminate He].
  - split; [split; [intros [e He]|intros E]; discriminate|intros e He; discriminate He].
  - split; [split; [intros [e He]|intros E]; discriminate|intros e He; discriminate He].
Qed.

(** X5: [buffer_ph] depends on the two concentrations through their ratio
    only: scaling both by the same non-zero factor changes nothing. *)
Theorem buffer_ph_scale_invariant (pKa k acid_conc salt_conc : R) :
  k <> 0 -> acid_conc <> 0 ->
  buffer_ph (Fin pKa) (Fin (k * acid_conc)) (Fin (k * salt_conc))
  = buffer_ph (Fin pKa) (Fin acid_conc) (Fin salt_conc).
Proof.
  intros Hk Ha.
  rewrite !buffer_ph_fin by (try apply Rmult_integral_contrapositive_currified; assumption).
  replace (k * salt_conc / (k * acid_conc)) with (salt_conc / acid_conc)
    by (field; split; assumption).
  reflexivity.
Qed.

Lemma buffer_ph_scale_invariant_witness :
  buffer_ph (Fin 4.76) (Fin (2 * 0.1)) (Fin (2 * 0.3))
  = buffer_ph (Fin 4.76) (Fin 0.1) (Fin 0.3).
Proof. apply (buffer_ph_scale_invariant 4.76 2 0.1 0.3); lra. Defined.

(** ** Which calls raise [OverflowError] *)

(** X18: on any double, [ka_from_pka] raises exactly when [10 ** (-pKa)]
    leaves the range of a double, and then [OverflowError]: never for
    [pKa >= -308], always for [pKa <= -309]; an infinite or NaN [pKa]
    raises nothing and gives 0, [inf] or NaN. *)
Theorem ka_from_pka_overflow (pKa : float) :
  (raises (ka_from_pka pKa) <->
   exists p, pKa = Fin p /\ overflow_threshold <= Rpower 10 (- p))
  /\ (forall e, ka_from_pka pKa = Raise e -> e = OverflowError)
  /\ (forall p, pKa = Fin p -> -308 <= p -> returns (ka_from_pka pKa))
  /\ (forall p, pKa = Fin p -> p <= -309 ->
      ka_from_pka pKa = Raise OverflowError)
  /\ ka_from_pka PInf = Ok (Fin 0)
  /\ ka_from_pka NInf = Ok PInf
  /\ ka_from_pka NaN = Ok NaN.
Proof.
  unfold ka_from_pka, py_pow10.
  split; [|split; [|split; [|split; [|repeat split]]]].
  - destruct pKa as [p| | |]; cbn [fneg].
    + split.
      * intros [e He]. exists p. split; [reflexivity|].
        apply pow10_overflows_fin.
        destruct (pow10_overflows (Fin (- p))); [reflexivity|discriminate He].
      * intros [q [Hq Hov]]. inversion Hq; subst q.
        apply pow10_overflows_fin in Hov. rewrite Hov.
        now exists OverflowError.
    + split; [intros [e He]; discriminate He
             | intros [q [Hq _]]; discriminate Hq].
    + split; [intros [e He]; discriminate He
             | intros [q [Hq _]]; discriminate Hq].
    + split; [intros [e He]; discriminate He
             | intros [q [Hq _]]; discriminate Hq].
  - intros e He.
    destruct (pow10_overflows (fneg pKa)); [now inversion He|discriminate He].
  - intros p Hp Hge. subst pKa. cbn [fneg].
    assert (Hin : Rpower 10 (- p) < overflow_threshold)
      by (apply pow10_in_range; lra).
    unfold pow10_overflows.
    destruct (Rle_dec overflow_threshold (Rpower 10 (- p)));
      [exfalso; lra | eexists; reflexivity].
  - intros p Hp Hle. subst pKa. cbn [fneg].
    assert (Hov : overflow_threshold <= Rpower 10 (- p))
      by (apply pow10_out_of_range; lra).
    apply pow10_overflows_fin in Hov. now rewrite Hov.
Qed.

Lemma ka_from_pka_overflow_witness :
  returns (ka_from_pka (Fin 4.76))
  /\ ka_from_pka (Fin (-400)) = Raise OverflowError.
Proof.
  split.
  - apply (ka_from_pka_overflow (Fin 4.76)) with (p := 4.76);
      [reflexivity | lra].
  - apply (ka_from_pka_overflow (Fin (-400))) with (p := -400);
      [reflexivity | lra].
Defined.

Lemma ph_from_ka_cases (Ka C : float) :
  (exists v, py_pow2 Ka = Ok v /\ ph_from_ka Ka C
     = Ok (fneg (np_log10
             (np_truediv
                (fadd (fneg Ka)
                   (np_sqrt (fadd v (fmul (fmul (Fin 4) Ka) C))))
                (Fin 2)))))
  \/ (py_pow2 Ka = Raise OverflowError
      /\ ph_from_ka Ka C = Raise OverflowError
      /\ exists k, Ka = Fin k /\ overflow_threshold <= k ^ 2).
Proof.
  unfold ph_from_ka.
  destruct Ka as [k| | |]; cbn [py_pow2].
  - destruct (Rle_dec overflow_threshold (k ^ 2)) as [Hov|Hin].
    + right. repeat split. now exists k.
    + left. eexists. split; reflexivity.
  - left. eexists. split; reflexivity.
  - left. eexists. split; reflexivity.
  - left. eexists. split; reflexivity.
Qed.

(** X19: over all doubles, [ph_from_ka] and [degree_of_dissociation]
    raise in the same cases, exactly when [Ka] is finite and [Ka**2]
    leaves the range of a double, and then [OverflowError].  No value of
    [C] makes them raise: a zero [C] divides in numpy, without
    [ZeroDivisionError]. *)
Theorem ph_from_ka_raises_iff_square_overflows (Ka C : float) :
  (raises (ph_from_ka Ka C) <->
   exists k, Ka = Fin k /\ overflow_threshold <= k ^ 2)
  /\ (forall e, ph_from_ka Ka C = Raise e -> e = OverflowError)
  /\ (raises (degree_of_dissociation Ka C) <-> raises (ph_from_ka Ka C))
  /\ (forall e, degree_of_dissociation Ka C = Raise e -> e = OverflowError)
  /\ returns (degree_of_dissociation (Fin 1) (Fin 0)).
Proof.
  unfold degree_of_dissociation.
  destruct (ph_from_ka_cases Ka C) as [[v [Hv E]]|[Hp [E Hk]]]; rewrite E.
  - cbn [bind]. split; [|split; [|split; [|split]]].
    + split; [intros [e He]; discriminate He|].
      intros [k [HKa Hov]]. subst Ka.
      rewrite py_pow2_overflow in Hv by assumption. discriminate Hv.
    + intros e He. discriminate He.
    + split; intros [e He]; discriminate He.
    + intros e He. discriminate He.
    + rewrite ph_from_ka_fin by (apply small_square_in_range; lra).
      cbn [bind]. eexists. reflexivity.
  - cbn [bind]. split; [|split; [|split; [|split]]].
    + split; [intros _; exact Hk | intros _; now exists OverflowError].
    + intros e He. now inversion He.
    + split; intros _; now exists OverflowError.
    + intros e He. now inversion He.
    + rewrite ph_from_ka_fin by (apply small_square_in_range; lra).
      cbn [bind]. eexists. reflexivity.
Qed.

(** ** Loading the module *)

(** X17: the example usage stops at its first call: whatever the two
    number formats produce, running it raises [TypeError] and adds no line
    to the output. *)
Theorem example_usage_raises
  (fmt_2e fmt_2f : float -> string) (out : list string) :
  Script.example_usage fmt_2e fmt_2f out = (out, Raise TypeError).
Proof.
  unfold Script.example_usage, Script.seq, Script.call.
  rewrite ka_from_ph_outcome. cbn [fneg].
  assert (Hin : Rpower 10 (- (2.89)) < overflow_threshold)
    by (apply pow10_in_range; lra).
  unfold pow10_overflows.
  destruct (Rle_dec overflow_threshold (Rpower 10 (- (2.89))));
    [exfalso; lra | reflexivity].
Qed.
